(** * A shallow embedding of [Trading_sim.py] (SimpleTradingSimulator)

    The module [Trading_sim.py] defines [Stock], [Trade], the dividend
    yield, the volume weighted price over the last five minutes and the
    GBCE all share index.  Numbers are modelled exactly: Python [int] as
    [Z], Python [float] as [Q] (rounding is not modelled), and the geometric
    mean of the standard library, which works with logarithms, over [R].
    Exceptions are a sum type; a call returns [inl e] when it raises [e]. *)

From Stdlib Require Import ZArith QArith Qreals Reals List String Ascii Bool Lia Lra Permutation.
Import ListNotations.
Open Scope string_scope.

(** ** Python values and exceptions *)

(** The dynamically typed arguments of the constructors: [None], an [int],
    a [float] or a [str]. *)
Inductive PyVal : Type :=
| PNone
| PInt (z : Z)
| PFloat (q : Q)
| PStr (s : string).

(** The exceptions the module can raise.  [StatisticsError] is the
    exception of [statistics.geometric_mean] (a subclass of [ValueError] in
    Python, raised outside every [try] of the module). *)
Inductive exn : Type :=
| ValueError (msg : string)
| TypeError (msg : string)
| NameError (msg : string)
| StatisticsError (msg : string).

Definition result (A : Type) : Type := (exn + A)%type.

Definition ret {A : Type} (a : A) : result A := inr a.
Definition raise {A : Type} (e : exn) : result A := inl e.

Definition bind {A B : Type} (m : result A) (k : A -> result B) : result B :=
  match m with
  | inl e => inl e
  | inr a => k a
  end.

Notation "x <- m ;; k" := (bind m (fun x => k))
  (at level 61, m at next level, right associativity).

(** ** Strings *)

(** [str.lower] on ASCII characters. *)
Definition ascii_lower (c : ascii) : ascii :=
  let n := nat_of_ascii c in
  if (65 <=? n)%nat && (n <=? 90)%nat then ascii_of_nat (n + 32) else c.

Fixpoint lower (s : string) : string :=
  match s with
  | EmptyString => EmptyString
  | String c s' => String (ascii_lower c) (lower s')
  end.

(** [str.startswith]. *)
Definition startswith (s prefix : string) : bool :=
  String.prefix prefix s.

(** ** The coercions [int(x)] and [float(x)] *)

Definition digit_val (c : ascii) : option Z :=
  let n := nat_of_ascii c in
  if (48 <=? n)%nat && (n <=? 57)%nat then Some (Z.of_nat (n - 48)) else None.

(** The digits of a decimal numeral: the value and the number of digits. *)
Fixpoint parse_digits (acc : Z) (len : nat) (s : string) : option (Z * nat * string) :=
  match s with
  | String c s' =>
      match digit_val c with
      | Some d => parse_digits (acc * 10 + d) (S len) s'
      | None => Some (acc, len, s)
      end
  | EmptyString => Some (acc, len, EmptyString)
  end.

Definition parse_sign (s : string) : Z * string :=
  match s with
  | String "-"%char s' => (-1, s')%Z
  | String "+"%char s' => (1, s')%Z
  | _ => (1, s)%Z
  end.

(** Literals [int] accepts here: an optional sign and decimal digits
    (surrounding white space and digit separators are not modelled). *)
Definition parse_int (s : string) : option Z :=
  let '(sg, s1) := parse_sign s in
  match parse_digits 0 0 s1 with
  | Some (n, S _, EmptyString) => Some (sg * n)%Z
  | _ => None
  end.

(** Literals [float] accepts here: an optional sign, digits and an optional
    fractional part (exponents, [inf] and [nan] are not modelled). *)
Definition parse_float (s : string) : option Q :=
  let '(sg, s1) := parse_sign s in
  match parse_digits 0 0 s1 with
  | Some (n, k, EmptyString) =>
      match k with O => None | _ => Some (inject_Z (sg * n)) end
  | Some (n, k, String "."%char s2) =>
      match parse_digits 0 0 s2 with
      | Some (f, m, EmptyString) =>
          match (k + m)%nat with
          | O => None
          | _ => Some (inject_Z (sg * (n * 10 ^ Z.of_nat m + f)) /
                       inject_Z (10 ^ Z.of_nat m))
          end
      | _ => None
      end
  | _ => None
  end.

(** [int(x)]: truncation toward zero on a [float]. *)
Definition py_int (v : PyVal) : result Z :=
  match v with
  | PNone => raise (TypeError "int() argument must be a string, a bytes-like object or a real number, not 'NoneType'")
  | PInt z => ret z
  | PFloat q => ret (Z.quot (Qnum q) (Zpos (Qden q)))
  | PStr s =>
      match parse_int s with
      | Some z => ret z
      | None => raise (ValueError ("invalid literal for int() with base 10: " ++ s))
      end
  end.

(** [float(x)]. *)
Definition py_float (v : PyVal) : result Q :=
  match v with
  | PNone => raise (TypeError "float() argument must be a string or a real number, not 'NoneType'")
  | PInt z => ret (inject_Z z)
  | PFloat q => ret q
  | PStr s =>
      match parse_float s with
      | Some q => ret q
      | None => raise (ValueError ("could not convert string to float: " ++ s))
      end
  end.

Definition is_none (v : PyVal) : bool :=
  match v with PNone => true | _ => false end.

Definition is_none_opt {A : Type} (o : option A) : bool :=
  match o with None => true | Some _ => false end.

(** ** [class Stock] *)

Record Stock : Type := mkStock {
  symbol : string;
  typ : string;
  last_div : Z;
  fixed_div : PyVal;
  par_value : Z
}.

(** [Stock.__init__(self, symbol, typ, last_div, fixed_div, par_value)]. *)
Definition Stock_init (symbol : option string) (typ : option string)
    (last_div fixed_div par_value : PyVal) : result Stock :=
  match symbol, typ with
  | Some sym, Some ty =>
      if is_none last_div || is_none par_value then
        raise (ValueError "Mandatory fields (symbol, type, last_div, par_value) cannot be None!")
      else
        let ty := lower ty in
        fd <- (if String.eqb ty "preferred" then
                 match fixed_div with
                 | PNone => raise (ValueError "fixed_div cannot be None for preferred stock!")
                 | _ => f <- py_int fixed_div;; ret (PInt f)
                 end
               else ret fixed_div);;
        ld <- py_int last_div;;
        pv <- py_int par_value;;
        ret (mkStock sym ty ld fd pv)
  | _, _ =>
      raise (ValueError "Mandatory fields (symbol, type, last_div, par_value) cannot be None!")
  end.

(** ** [class Trade] *)

(** [instant] is the value of [datetime.now(UTC)], in microseconds. *)
Record Trade : Type := mkTrade {
  instant : Z;
  stock : Stock;
  is_buy : bool;
  qty : Z;
  price : Q
}.

(** [Trade.__init__(self, stock, indicator, qty, price)]; [now] is the value
    [datetime.now(UTC)] returns on its first line. *)
Definition Trade_init (now : Z) (stock : option Stock) (indicator : option string)
    (qty price : PyVal) : result Trade :=
  q <- py_int qty;;
  p <- py_float price;;
  match stock, indicator with
  | Some st, Some ind =>
      if (q <=? 0)%Z || Qle_bool p 0 then
        raise (ValueError "Price and quantity must be greater than 0")
      else
        let ind := lower ind in
        if negb (String.eqb ind "buy" || String.eqb ind "sell") then
          raise (ValueError ("Invalid buy/sell indicator " ++ ind))
        else ret (mkTrade now st (String.eqb ind "buy") q p)
  | _, _ =>
      raise (ValueError "Mandatory fields (stock, indicator, qty, price) cannot be None!")
  end.

(** [buy] and [sell]. *)
Definition buy (now : Z) (stock : Stock) (qty price : PyVal) : result Trade :=
  Trade_init now (Some stock) (Some "buy") qty price.

Definition sell (now : Z) (stock : Stock) (qty price : PyVal) : result Trade :=
  Trade_init now (Some stock) (Some "sell") qty price.

(** ** [calc_div_yield(stock, price)]

    Line 83 reads [raise valueError(...)]: the name [valueError] is not
    bound, so evaluating it raises [NameError]. *)
Definition calc_div_yield (stock : Stock) (price : Q) : result Q :=
  if Qle_bool price 0 then
    raise (NameError "name 'valueError' is not defined")
  else if String.eqb (lower (typ stock)) "common" then
    ret (inject_Z (last_div stock) / price)
  else
    match fixed_div stock with
    | PInt f => ret (inject_Z (f * par_value stock) / (price * 100))
    | PFloat f => ret (f * inject_Z (par_value stock) / (price * 100))
    | PNone => raise (TypeError "unsupported operand type(s) for *: 'NoneType' and 'int'")
    | PStr _ => raise (TypeError "unsupported operand type(s) for /: 'str' and 'float'")
    end.

(** ** [calc_volume_weighted_price(stock, trades)]

    [now] is the value [datetime.now(UTC)] returns on line 99, in
    microseconds; [timedelta(minutes=5)] is [300000000] microseconds. *)
Definition five_minutes : Z := 300000000.

Definition vwp_step (st : Stock) (cutoff_date : Z) (acc : Q * Z) (trade : Trade) : Q * Z :=
  let '(weighted_price, volume) := acc in
  if (cutoff_date <? instant trade)%Z && String.eqb (symbol (stock trade)) (symbol st)
  then (weighted_price + price trade * inject_Z (qty trade), (volume + qty trade)%Z)
  else (weighted_price, volume).

Definition no_activity_msg (sym : string) : string :=
  "Couldn't find any trading activity for " ++ sym ++ "!".

Definition calc_volume_weighted_price (now : Z) (st : Stock) (trades : list Trade) : result Q :=
  let cutoff_date := (now - five_minutes)%Z in
  let '(weighted_price, volume) := fold_left (vwp_step st cutoff_date) trades (0, 0%Z) in
  if (volume =? 0)%Z then raise (ValueError (no_activity_msg (symbol st)))
  else ret (weighted_price / inject_Z volume).

(** ** [statistics.geometric_mean] (Python 3.12): [exp(fmean(map(log, data)))];
    a non-positive value or an empty list raises [StatisticsError]. *)
Definition geometric_mean (data : list Q) : result R :=
  if (List.length data =? 0)%nat || existsb (fun x => Qle_bool x 0) data then
    raise (StatisticsError "geometric mean requires a non-empty dataset containing positive numbers")
  else
    ret (exp (fold_right Rplus 0%R (map (fun x => ln (Q2R x)) data) / INR (List.length data))).

(** ** [gbce(stocks, trades)]

    [stocks] is the dictionary from symbols to stocks, in insertion order.
    The loop is written over the per-stock computation [vwp]: its [i]-th
    call computes the volume weighted price of the [i]-th stock.  The
    handler catches [ValueError] (and so its subclass [StatisticsError]) and
    re-raises it unless its text starts with the no-activity prefix. *)
Definition no_activity_prefix : string := "Couldn't find any trading activity".

Definition swallowed (e : exn) : bool :=
  match e with
  | ValueError m | StatisticsError m => startswith m no_activity_prefix
  | _ => false
  end.

Fixpoint gbce_loop (vwp : nat -> Stock -> list Trade -> result Q) (i : nat)
    (stocks : list (string * Stock)) (trades : list Trade)
    (volume_weighted_prices : list Q) : result (list Q) :=
  match stocks with
  | [] => ret volume_weighted_prices
  | (sym, st) :: rest =>
      match vwp i st trades with
      | inr v => gbce_loop vwp (S i) rest trades (volume_weighted_prices ++ [v])
      | inl e =>
          if swallowed e then gbce_loop vwp (S i) rest trades volume_weighted_prices
          else raise e
      end
  end.

Definition gbce_with (vwp : nat -> Stock -> list Trade -> result Q)
    (stocks : list (string * Stock)) (trades : list Trade) : result R :=
  prices <- gbce_loop vwp 0 stocks trades [];;
  if (List.length prices =? 0)%nat then
    raise (ValueError "Couldn't find any trading activity for any stock!")
  else geometric_mean prices.

(** [gbce] itself: its [i]-th call of [calc_volume_weighted_price] reads the
    clock value [clock i]. *)
Definition gbce (clock : nat -> Z) (stocks : list (string * Stock)) (trades : list Trade) : result R :=
  gbce_with (fun i => calc_volume_weighted_price (clock i)) stocks trades.

(** The catalog of the main block. *)
Definition catalog : list (result Stock) :=
  [ Stock_init (Some "TEA") (Some "common") (PInt 0) PNone (PInt 100);
    Stock_init (Some "POP") (Some "common") (PInt 8) PNone (PInt 100);
    Stock_init (Some "ALE") (Some "common") (PInt 23) PNone (PInt 60);
    Stock_init (Some "GIN") (Some "preferred") (PInt 8) (PInt 2) (PInt 100);
    Stock_init (Some "JOE") (Some "common") (PInt 13) PNone (PInt 250) ].

Definition POP : Stock := mkStock "POP" "common" 8 PNone 100.
Definition GIN : Stock := mkStock "GIN" "preferred" 8 (PInt 2) 100.

(** ** Messages *)

Definition trade_mandatory_msg : string :=
  "Mandatory fields (stock, indicator, qty, price) cannot be None!".

Definition int_none_msg : string :=
  "int() argument must be a string, a bytes-like object or a real number, not 'NoneType'".

Definition float_none_msg : string :=
  "float() argument must be a string or a real number, not 'NoneType'".

Definition is_inl {A B : Type} (x : A + B) : bool :=
  match x with inl _ => true | inr _ => false end.

(** ** Facts about the definitions *)

Lemma Qle_bool_false_lt (p : Q) : 0 < p -> Qle_bool p 0 = false.
Proof.
  intro H. destruct (Qle_bool p 0) eqn:E; [|reflexivity].
  apply Qle_bool_iff in E. exfalso. apply (Qlt_not_le 0 p H E).
Qed.

Lemma Qle_bool_true_le (p : Q) : p <= 0 -> Qle_bool p 0 = true.
Proof. intro H. apply Qle_bool_iff. exact H. Qed.

Lemma bind_inr {A B : Type} (m : result A) (k : A -> result B) (b : B) :
  bind m k = inr b -> exists a, m = inr a /\ k a = inr b.
Proof. destruct m as [e|a]; simpl; [discriminate | eauto]. Qed.

(** A stock built by [Stock.__init__] keeps the lowercased type, and a
    preferred one an [int] fixed dividend. *)
Lemma Stock_init_shape (sym ty : string) (ld fd pv : PyVal) (st : Stock) :
  Stock_init (Some sym) (Some ty) ld fd pv = inr st ->
  typ st = lower ty /\
  (lower ty = "preferred" -> exists f, fixed_div st = PInt f) /\
  (lower ty <> "preferred" -> fixed_div st = fd).
Proof.
  unfold Stock_init. destruct (is_none ld || is_none pv); [discriminate|].
  intro H. apply bind_inr in H as [fd' [Hfd H]].
  apply bind_inr in H as [ld' [_ H]]. apply bind_inr in H as [pv' [_ H]].
  unfold ret in H. injection H as <-. simpl. split; [reflexivity|].
  destruct (String.eqb_spec (lower ty) "preferred") as [Ep|Np].
  - split; [|intro C; contradiction].
    intros _. destruct fd; try discriminate;
      apply bind_inr in Hfd as [f [_ Hf]]; injection Hf as <-; eauto.
  - split; [intro C; contradiction|]. intros _. injection Hfd as <-. reflexivity.
Qed.

Lemma ascii_lower_idem (c : ascii) : ascii_lower (ascii_lower c) = ascii_lower c.
Proof. destruct c as [[] [] [] [] [] [] [] []]; reflexivity. Qed.

Lemma lower_idem (s : string) : lower (lower s) = lower s.
Proof. induction s as [|c s IH]; simpl; [reflexivity|]. rewrite ascii_lower_idem, IH. reflexivity. Qed.

(** ** Dividend yield *)

(** C1 (code_bug): for every stock and every price [<= 0],
    [calc_div_yield] raises [NameError] (the misspelt [valueError] on line 83),
    not the [ValueError] 'Price must be greater than 0' the code means. *)
Theorem calc_div_yield_nonpositive_NameError (st : Stock) (p : Q) :
  p <= 0 ->
  calc_div_yield st p = raise (NameError "name 'valueError' is not defined").
Proof.
  intro H. unfold calc_div_yield. rewrite (Qle_bool_true_le p H). reflexivity.
Qed.

Lemma calc_div_yield_nonpositive_NameError_witness :
  0 <= 0 /\ calc_div_yield POP 0 = raise (NameError "name 'valueError' is not defined").
Proof.
  split; [apply Qle_refl|].
  apply (calc_div_yield_nonpositive_NameError POP 0). apply Qle_refl.
Defined.

(** C2: for a stock built by [Stock.__init__] with a recognized type and a
    price [> 0], a common stock yields [last_div / price] and a preferred
    one [(fixed_div * par_value) / (price * 100)]; POP (last dividend 8) at
    price 2 yields 4 and GIN (2%, par 100) at price 50 yields 0.04. *)
Theorem calc_div_yield_recognized
    (sym ty : string) (ld fd pv : PyVal) (st : Stock) (p : Q) :
  Stock_init (Some sym) (Some ty) ld fd pv = inr st -> 0 < p ->
  (typ st = "common" ->
     calc_div_yield st p = ret (inject_Z (last_div st) / p)) /\
  (typ st = "preferred" ->
     exists f, fixed_div st = PInt f /\
       calc_div_yield st p = ret (inject_Z (f * par_value st) / (p * 100))) /\
  (match calc_div_yield POP 2 with inr y => y == 4 | inl _ => False end) /\
  (match calc_div_yield GIN 50 with inr y => y == 4 # 100 | inl _ => False end).
Proof.
  intros Hinit Hp. destruct (Stock_init_shape _ _ _ _ _ _ Hinit) as [Ht [Hpref _]].
  unfold calc_div_yield. rewrite (Qle_bool_false_lt p Hp).
  split; [|split; [|split]].
  - intro Hc. rewrite Hc. reflexivity.
  - intro Hc. rewrite Hc. rewrite Ht in Hc. destruct (Hpref Hc) as [f Hf].
    exists f. rewrite Hf. split; reflexivity.
  - reflexivity.
  - reflexivity.
Qed.

Lemma calc_div_yield_recognized_witness :
  Stock_init (Some "GIN") (Some "preferred") (PInt 8) (PInt 2) (PInt 100) = inr GIN /\
  0 < 50 /\
  exists f, fixed_div GIN = PInt f /\
    calc_div_yield GIN 50 = ret (inject_Z (f * par_value GIN) / (50 * 100)).
Proof.
  split; [reflexivity|]. split; [reflexivity|].
  apply (calc_div_yield_recognized "GIN" "preferred" (PInt 8) (PInt 2) (PInt 100) GIN 50);
    reflexivity.
Defined.



(** ** Trade construction *)

(** C7: when [int(qty)] and [float(price)] give [q] and [p], [Trade.__init__]
    raises [ValueError] if [q <= 0] or [p <= 0], or if the indicator is a
    string whose lowercase is neither "buy" nor "sell"; no [Trade] is
    built in any of these cases. *)
Theorem Trade_init_invalid_rejected (now : Z) (st : option Stock) (ind : option string)
    (qty price : PyVal) (q : Z) (p : Q) :
  py_int qty = inr q -> py_float price = inr p ->
  ((q <= 0)%Z \/ p <= 0 \/ (exists s, ind = Some s /\ lower s <> "buy" /\ lower s <> "sell")) ->
  (exists m, Trade_init now st ind qty price = raise (ValueError m)) /\
  (forall t, Trade_init now st ind qty price <> ret t).
Proof.
  intros Hq Hp Hbad.
  enough (H : exists m, Trade_init now st ind qty price = raise (ValueError m)).
  { split; [exact H|]. destruct H as [m Hm]. rewrite Hm. intros t C. discriminate C. }
  unfold Trade_init. rewrite Hq. simpl. rewrite Hp. simpl.
  destruct st as [s|]; [|eauto]. destruct ind as [i|]; [|eauto].
  destruct (q <=? 0)%Z eqn:Eq; [simpl; eauto|].
  destruct (Qle_bool p 0) eqn:Ep; [simpl; eauto|]. simpl.
  destruct Hbad as [Hb|[Hb|[s' [Hs [Hb1 Hb2]]]]].
  - apply Z.leb_le in Hb. congruence.
  - apply Qle_bool_iff in Hb. congruence.
  - injection Hs as <-. apply String.eqb_neq in Hb1, Hb2.
    rewrite Hb1, Hb2. simpl. eauto.
Qed.

Lemma Trade_init_invalid_rejected_witness :
  (exists m, Trade_init 0 (Some POP) (Some "hold") (PStr "5") (PStr "1.2") = raise (ValueError m)) /\
  (forall t, Trade_init 0 (Some POP) (Some "hold") (PStr "5") (PStr "1.2") <> ret t).
Proof.
  apply (Trade_init_invalid_rejected 0 (Some POP) (Some "hold") (PStr "5") (PStr "1.2")
           5 (12 # 10)); [reflexivity | reflexivity |].
  right. right. exists "hold". split; [reflexivity|]. split; discriminate.
Defined.

(** C10 (counterexample): [int(qty)] runs before [float(price)], so with
    [qty = "abc"] and [price = None] the call raises the [ValueError] of
    [int], not a [TypeError]. *)
Lemma Trade_init_none_price_after_bad_qty :
  Trade_init 0 (Some POP) (Some "buy") (PStr "abc") PNone =
    raise (ValueError "invalid literal for int() with base 10: abc").
Proof. reflexivity. Qed.

(** C10 (amended): [qty] and [price] are coerced by [int] and [float] before
    the mandatory-field check, so a [None] [qty] or [price] never leads to
    the 'Mandatory fields' error: a [None] [qty] raises the [TypeError] of
    [int()], and a [None] [price] raises the [TypeError] of [float()]
    whenever [int(qty)] succeeds (otherwise the exception of [int(qty)]). *)
Theorem Trade_init_none_coerced_first (now : Z) (st : option Stock) (ind : option string)
    (qty price : PyVal) :
  (qty = PNone \/ price = PNone ->
     Trade_init now st ind qty price <> raise (ValueError trade_mandatory_msg)) /\
  (qty = PNone -> Trade_init now st ind qty price = raise (TypeError int_none_msg)) /\
  (price = PNone ->
     Trade_init now st ind qty price =
       match py_int qty with
       | inl e => inl e
       | inr _ => raise (TypeError float_none_msg)
       end).
Proof.
  assert (Hq : qty = PNone -> Trade_init now st ind qty price = raise (TypeError int_none_msg)).
  { intros ->. reflexivity. }
  assert (Hp : price = PNone ->
     Trade_init now st ind qty price =
       match py_int qty with inl e => inl e | inr _ => raise (TypeError float_none_msg) end).
  { intros ->. unfold Trade_init. destruct (py_int qty); reflexivity. }
  split; [|split; assumption].
  intros [H|H].
  - rewrite (Hq H). discriminate.
  - rewrite (Hp H). destruct qty; simpl; try discriminate.
    destruct (parse_int s); discriminate.
Qed.

Lemma Trade_init_none_coerced_first_witness :
  Trade_init 0 (Some POP) (Some "buy") (PStr "5") PNone <> raise (ValueError trade_mandatory_msg).
Proof.
  apply (proj1 (Trade_init_none_coerced_first 0 (Some POP) (Some "buy") (PStr "5") PNone)).
  right. reflexivity.
Defined.

(** ** Stock construction *)

Lemma py_int_not_none_ValueError (v : PyVal) (e : exn) :
  v <> PNone -> py_int v = inl e -> exists m, e = ValueError m.
Proof.
  intros Hn H. destruct v; simpl in H; try discriminate.
  - contradiction.
  - destruct (parse_int s); [discriminate|]. injection H as <-. eauto.
Qed.

Lemma is_inl_true {A B : Type} (x : A + B) : is_inl x = true <-> exists a, x = inl a.
Proof.
  destruct x as [a|b]; simpl; split; intro H; eauto.
  - discriminate H.
  - destruct H as [a H]. discriminate H.
Qed.

(** C8 (counterexample): a stock of type "Foo", neither common nor
    preferred, is built without error. *)
Lemma Stock_init_unrecognized_kind_accepted :
  Stock_init (Some "XYZ") (Some "Foo") (PInt 1) PNone (PInt 100) =
    ret (mkStock "XYZ" "foo" 1 PNone 100).
Proof. reflexivity. Qed.

(** When [Stock.__init__] fails: a mandatory field is [None], or the
    lowercased type is "preferred" and [fixed_div] is [None] or rejected by
    [int], or [int] rejects [last_div] or [par_value]. *)
Lemma Stock_init_failure_cases (sym ty : option string) (ld fd pv : PyVal) :
  is_inl (Stock_init sym ty ld fd pv) = true <->
     sym = None \/ ty = None \/ ld = PNone \/ pv = PNone \/
     (exists t, ty = Some t /\ lower t = "preferred" /\
                (fd = PNone \/ is_inl (py_int fd) = true)) \/
     is_inl (py_int ld) = true \/ is_inl (py_int pv) = true.
Proof.
  destruct sym as [s|]; [|simpl; tauto].
  destruct ty as [t|]; [|simpl; tauto].
  unfold Stock_init.
  destruct (is_none ld) eqn:Eld.
  { simpl. 
    split; [|reflexivity]. intros _. destruct ld; try discriminate. tauto. }
  destruct (is_none pv) eqn:Epv.
  { simpl. 
    split; [|reflexivity]. intros _. destruct pv; try discriminate. tauto. }
  simpl.
  assert (Nld : ld <> PNone) by (intros ->; discriminate).
  assert (Npv : pv <> PNone) by (intros ->; discriminate).
  destruct (String.eqb_spec (lower t) "preferred") as [Ep|Np].
  - (* preferred *)
    destruct fd eqn:Efd.
    + simpl. split; [|reflexivity].
      intros _. right; right; right; right; left. eauto.
    + simpl. unfold bind.
      destruct (py_int ld) as [e1|l] eqn:E1.
      * 
        split; [|reflexivity]. intros _. right; right; right; right; right; left. reflexivity.
      * destruct (py_int pv) as [e2|v] eqn:E2.
        -- 
           split; [|reflexivity]. intros _. right; right; right; right; right; right. reflexivity.
        -- simpl. split; [discriminate|].
           intros [H|[H|[H|[H|[[t' [Ht [_ [H|H]]]]|[H|H]]]]]]; try discriminate; congruence.
    + simpl. unfold bind.
      destruct (py_int ld) as [e1|l] eqn:E1.
      * 
        split; [|reflexivity]. intros _. right; right; right; right; right; left. reflexivity.
      * destruct (py_int pv) as [e2|v] eqn:E2.
        -- 
           split; [|reflexivity]. intros _. right; right; right; right; right; right. reflexivity.
        -- simpl. split; [discriminate|].
           intros [H|[H|[H|[H|[[t' [Ht [_ [H|H]]]]|[H|H]]]]]]; try discriminate; congruence.
    + unfold bind. simpl. destruct (parse_int s0) as [z|] eqn:Es.
      * simpl. destruct (py_int ld) as [e1|l] eqn:E1.
        -- 
           split; [|reflexivity]. intros _. right; right; right; right; right; left. reflexivity.
        -- destruct (py_int pv) as [e2|v] eqn:E2.
           ++ 
              split; [|reflexivity]. intros _. right; right; right; right; right; right. reflexivity.
           ++ simpl. split; [discriminate|].
              intros [H|[H|[H|[H|[[t' [Ht [_ [H|H]]]]|[H|H]]]]]]; try discriminate; try congruence.
      * split; [|reflexivity].
        intros _. right; right; right; right; left. exists t. split; [reflexivity|].
        split; [exact Ep|]. right. reflexivity.
  - (* any other type *)
    simpl. destruct (py_int ld) as [e1|l] eqn:E1.
    + 
      split; [|reflexivity]. intros _. right; right; right; right; right; left. reflexivity.
    + destruct (py_int pv) as [e2|v] eqn:E2.
      * 
        split; [|reflexivity]. intros _. right; right; right; right; right; right. reflexivity.
      * simpl. split; [discriminate|].
        intros [H|[H|[H|[H|[[t' [Ht [Hp _]]]|[H|H]]]]]]; try discriminate; try congruence.
Qed.


Definition mandatory_msg : string :=
  "Mandatory fields (symbol, type, last_div, par_value) cannot be None!".

Definition fixed_div_msg : string := "fixed_div cannot be None for preferred stock!".

(** Where an exception of [Stock.__init__] comes from: one of its two
    [ValueError]s, or the exception of one of its [int] calls. *)
Lemma Stock_init_error_source (sym ty : option string) (ld fd pv : PyVal) (e : exn) :
  Stock_init sym ty ld fd pv = inl e ->
  e = ValueError mandatory_msg \/ e = ValueError fixed_div_msg \/
  py_int fd = inl e \/ py_int ld = inl e \/ py_int pv = inl e.
Proof.
  unfold Stock_init, bind, ret, raise.
  destruct sym as [s|], ty as [t|]; try (intro H; injection H as <-; left; reflexivity).
  destruct (is_none ld || is_none pv); [intro H; injection H as <-; left; reflexivity|].
  destruct (String.eqb (lower t) "preferred").
  - destruct fd; [intro H; injection H as <-; right; left; reflexivity| | |];
      match goal with
      | |- context [match py_int ?f with _ => _ end] =>
          destruct (py_int f) eqn:Ef; [intro H; injection H as <-; auto 6|]
      end;
      (destruct (py_int ld) eqn:El; [intro H; injection H as <-; auto 6|]);
      (destruct (py_int pv) eqn:Ep; [intro H; injection H as <-; auto 6| discriminate]).
  - (destruct (py_int ld) eqn:El; [intro H; injection H as <-; auto 6|]);
      (destruct (py_int pv) eqn:Ep; [intro H; injection H as <-; auto 6| discriminate]).
Qed.

(** What a constructed [Stock] holds: the symbol, the lowercased type,
    [int(last_div)], [int(par_value)], and [int(fixed_div)] for a preferred
    stock or [fixed_div] unchanged otherwise. *)
Lemma Stock_init_success_fields (sym ty : option string) (ld fd pv : PyVal) (st : Stock) :
  Stock_init sym ty ld fd pv = inr st ->
  exists s t, sym = Some s /\ ty = Some t /\ symbol st = s /\ typ st = lower t /\
    py_int ld = inr (last_div st) /\ py_int pv = inr (par_value st) /\
    (if String.eqb (lower t) "preferred"
     then exists f, py_int fd = inr f /\ fixed_div st = PInt f
     else fixed_div st = fd).
Proof.
  unfold Stock_init, bind, ret, raise.
  destruct sym as [s|], ty as [t|]; try discriminate.
  destruct (is_none ld || is_none pv); [discriminate|].
  destruct (String.eqb (lower t) "preferred") eqn:Ept; intro H.
  - destruct fd as [|z|q|str]; [discriminate H| | |]; cbn beta iota in H;
      destruct (py_int _) as [|f'] eqn:Ef in H; try discriminate H;
      (destruct (py_int ld) eqn:El; [discriminate H|]);
      (destruct (py_int pv) eqn:Ep; [discriminate H|]);
      injection H as <-; exists s, t; simpl; rewrite ?Ept;
      (repeat split); exists f'; (split; [exact Ef | reflexivity]).
  - (destruct (py_int ld) eqn:El; [discriminate H|]);
      (destruct (py_int pv) eqn:Ep; [discriminate H|]);
      injection H as <-; exists s, t; simpl; rewrite ?Ept;
      repeat split; reflexivity.
Qed.

Lemma py_int_error_msg (v : PyVal) (e : exn) :
  py_int v = inl e -> e <> ValueError mandatory_msg /\ e <> ValueError fixed_div_msg.
Proof.
  destruct v as [| | |str]; simpl; try discriminate.
  - intro H; injection H as <-; split; discriminate.
  - destruct (parse_int str); [discriminate|].
    intro H; injection H as <-; split; intro E; injection E; simpl; discriminate.
Qed.

(** The two [ValueError]s raised by [Stock.__init__] itself, and when. *)
Lemma Stock_init_value_errors (sym ty : option string) (ld fd pv : PyVal) (e : exn) :
  Stock_init sym ty ld fd pv = inl e ->
  (e = ValueError mandatory_msg <->
     sym = None \/ ty = None \/ ld = PNone \/ pv = PNone) /\
  (e = ValueError fixed_div_msg <->
     (exists t, ty = Some t /\ lower t = "preferred") /\ fd = PNone /\
     sym <> None /\ ld <> PNone /\ pv <> PNone).
Proof.
  assert (Dm : ValueError mandatory_msg <> ValueError fixed_div_msg) by discriminate.
  unfold Stock_init, bind, ret, raise.
  destruct sym as [s|], ty as [t|];
    try (intro H; injection H as <-; split;
         [tauto | split; [intro E; destruct (Dm E) | intros [[t' [C _]] [_ [C' _]]]; congruence]]).
  destruct (is_none ld) eqn:Nl.
  { intro H; injection H as <-. destruct ld; try discriminate. split; [tauto|].
    split; [intro E; destruct (Dm E) | intros [_ [_ [_ [C _]]]]; congruence]. }
  destruct (is_none pv) eqn:Np.
  { intro H; injection H as <-. destruct pv; try discriminate. split; [tauto|].
    split; [intro E; destruct (Dm E) | intros [_ [_ [_ [_ C]]]]; congruence]. }
  assert (Nld : ld <> PNone) by (intros ->; discriminate).
  assert (Npv : pv <> PNone) by (intros ->; discriminate).
  simpl. intro H.
  assert (Hs : (e = ValueError fixed_div_msg /\ lower t = "preferred" /\ fd = PNone) \/
               ((py_int fd = inl e \/ py_int ld = inl e \/ py_int pv = inl e) /\
                ~ (String.eqb (lower t) "preferred" = true /\ fd = PNone))).
  { destruct (String.eqb (lower t) "preferred") eqn:Ept.
    - destruct fd.
      + injection H as <-. left. split; [reflexivity|].
        split; [apply String.eqb_eq; exact Ept | reflexivity].
      + right. split; [|intros [_ C]; discriminate]. revert H.
        destruct (py_int ld) eqn:El; [intro H; injection H as <-; auto|].
        destruct (py_int pv) eqn:Ep; [intro H; injection H as <-; auto|discriminate].
      + right. split; [|intros [_ C]; discriminate]. revert H.
        destruct (py_int ld) eqn:El; [intro H; injection H as <-; auto|].
        destruct (py_int pv) eqn:Ep; [intro H; injection H as <-; auto|discriminate].
      + right. split; [|intros [_ C]; discriminate]. revert H.
        destruct (py_int (PStr s0)) eqn:Ef; [intro H; injection H as <-; auto|].
        destruct (py_int ld) eqn:El; [intro H; injection H as <-; auto|].
        destruct (py_int pv) eqn:Ep; [intro H; injection H as <-; auto|discriminate].
    - right. split; [|intros [C _]; discriminate]. revert H.
      destruct (py_int ld) eqn:El; [intro H; injection H as <-; auto|].
      destruct (py_int pv) eqn:Ep; [intro H; injection H as <-; auto|discriminate]. }
  destruct Hs as [[-> [Ep ->]]|[Hi Hn]].
  - split.
    + split; [intro E; destruct (Dm (eq_sym E)) | intros [C|[C|[C|C]]]; congruence].
    + split; [intros _ | intros _; reflexivity].
      split; [exists t; split; [reflexivity | exact Ep]|].
      split; [reflexivity|]. split; [discriminate|]. split; assumption.
  - assert (Ne : e <> ValueError mandatory_msg /\ e <> ValueError fixed_div_msg)
      by (destruct Hi as [E|[E|E]]; exact (py_int_error_msg _ _ E)).
    destruct Ne as [N1 N2]. split.
    + split; [intro E; contradiction | intros [C|[C|[C|C]]]; congruence].
    + split; [intro E; contradiction|]. intros [[t' [Et Ep]] [Ef _]].
      injection Et as <-. exfalso. apply Hn. split; [apply String.eqb_eq; exact Ep | exact Ef].
Qed.

(** C8 (amended): [Stock.__init__] fails exactly when a mandatory field
    ([symbol], [typ], [last_div], [par_value]) is [None], or the lowercased
    type is "preferred" and [fixed_div] is [None] or rejected by [int], or
    [int] rejects [last_div] or [par_value]. The two [None] checks raise
    their [ValueError]s; any other failure is the exception of an [int]
    call, propagated as it is. Any other type string is accepted, and a
    constructed stock stores the type lowercased, [int(last_div)],
    [int(par_value)], and [int(fixed_div)] for a preferred stock or
    [fixed_div] unchanged otherwise. *)
Theorem Stock_init_fails_iff (sym ty : option string) (ld fd pv : PyVal) :
  (is_inl (Stock_init sym ty ld fd pv) = true <->
     sym = None \/ ty = None \/ ld = PNone \/ pv = PNone \/
     (exists t, ty = Some t /\ lower t = "preferred" /\
                (fd = PNone \/ is_inl (py_int fd) = true)) \/
     is_inl (py_int ld) = true \/ is_inl (py_int pv) = true) /\
  (forall e, Stock_init sym ty ld fd pv = inl e ->
     (e = ValueError mandatory_msg <->
        sym = None \/ ty = None \/ ld = PNone \/ pv = PNone) /\
     (e = ValueError fixed_div_msg <->
        (exists t, ty = Some t /\ lower t = "preferred") /\ fd = PNone /\
        sym <> None /\ ld <> PNone /\ pv <> PNone) /\
     (e <> ValueError mandatory_msg -> e <> ValueError fixed_div_msg ->
        py_int fd = inl e \/ py_int ld = inl e \/ py_int pv = inl e)) /\
  (forall st, Stock_init sym ty ld fd pv = inr st ->
     exists s t, sym = Some s /\ ty = Some t /\ symbol st = s /\ typ st = lower t /\
       py_int ld = inr (last_div st) /\ py_int pv = inr (par_value st) /\
       (if String.eqb (lower t) "preferred"
        then exists f, py_int fd = inr f /\ fixed_div st = PInt f
        else fixed_div st = fd)).
Proof.
  split; [apply Stock_init_failure_cases|]. split; [|apply Stock_init_success_fields].
  intros e H. destruct (Stock_init_value_errors _ _ _ _ _ _ H) as [V1 V2].
  split; [exact V1|]. split; [exact V2|].
  intros N1 N2. destruct (Stock_init_error_source _ _ _ _ _ _ H) as [E|[E|E]];
      [contradiction|contradiction|exact E].
Qed.

(** ** Volume weighted price *)

(** The trades the loop of [calc_volume_weighted_price] accumulates. *)
Definition in_window (now : Z) (st : Stock) (trade : Trade) : bool :=
  (now - five_minutes <? instant trade)%Z && String.eqb (symbol (stock trade)) (symbol st).

Definition window (now : Z) (st : Stock) (trades : list Trade) : list Trade :=
  filter (in_window now st) trades.

Definition sum_weighted (ts : list Trade) : Q :=
  fold_right (fun t acc => price t * inject_Z (qty t) + acc) 0 ts.

Definition sum_qty (ts : list Trade) : Z :=
  fold_right (fun t acc => (qty t + acc)%Z) 0%Z ts.

Definition vwp_add (acc : Q * Z) (trade : Trade) : Q * Z :=
  (fst acc + price trade * inject_Z (qty trade), (snd acc + qty trade)%Z).

Lemma vwp_fold_window (now : Z) (st : Stock) (trades : list Trade) (acc : Q * Z) :
  fold_left (vwp_step st (now - five_minutes)) trades acc =
  fold_left vwp_add (window now st trades) acc.
Proof.
  revert acc. induction trades as [|t ts IH]; intros [w v]; simpl; [reflexivity|].
  unfold window in *. simpl. unfold in_window at 1.
  destruct ((now - five_minutes <? instant t)%Z && String.eqb (symbol (stock t)) (symbol st));
    simpl; apply IH.
Qed.

Lemma vwp_add_fold (ts : list Trade) (w : Q) (v : Z) :
  fst (fold_left vwp_add ts (w, v)) == w + sum_weighted ts /\
  snd (fold_left vwp_add ts (w, v)) = (v + sum_qty ts)%Z.
Proof.
  revert w v. induction ts as [|t ts IH]; intros w v.
  - simpl. split; [ring | lia].
  - change (fold_left vwp_add (t :: ts) (w, v)) with
      (fold_left vwp_add ts (w + price t * inject_Z (qty t), (v + qty t)%Z)).
    cbn [sum_weighted sum_qty fold_right].
    fold (sum_weighted ts). fold (sum_qty ts).
    destruct (IH (w + price t * inject_Z (qty t)) (v + qty t)%Z) as [H1 H2].
    split; [rewrite H1; ring | rewrite H2; lia].
Qed.

Lemma sum_qty_pos (ts : list Trade) :
  Forall (fun t => (0 < qty t)%Z) ts -> ts <> [] -> (0 < sum_qty ts)%Z.
Proof.
  induction ts as [|t ts IH]; intros Hall Hne; [contradiction|].
  inversion Hall as [|? ? Ht Hts]; subst. simpl.
  destruct ts as [|t' ts']; [simpl; lia|].
  assert (0 < sum_qty (t' :: ts'))%Z by (apply IH; [exact Hts | discriminate]). lia.
Qed.

Lemma Forall_window (P : Trade -> Prop) (now : Z) (st : Stock) (trades : list Trade) :
  Forall P trades -> Forall P (window now st trades).
Proof.
  intro H. unfold window. apply Forall_forall. intros t Ht.
  apply filter_In in Ht as [Ht _]. exact (proj1 (Forall_forall P trades) H t Ht).
Qed.

Lemma calc_vwp_window (now : Z) (st : Stock) (trades : list Trade) :
  calc_volume_weighted_price now st trades =
  let '(weighted_price, volume) := fold_left vwp_add (window now st trades) (0, 0%Z) in
  if (volume =? 0)%Z then raise (ValueError (no_activity_msg (symbol st)))
  else ret (weighted_price / inject_Z volume).
Proof. unfold calc_volume_weighted_price. rewrite vwp_fold_window. reflexivity. Qed.

Lemma vwp_window_facts (now : Z) (st : Stock) (trades : list Trade) :
  Forall (fun t => (0 < qty t)%Z) trades ->
  (forall t, In t (window now st trades) <->
     In t trades /\ (now - five_minutes < instant t)%Z /\ symbol (stock t) = symbol st) /\
  (window now st trades = [] ->
     calc_volume_weighted_price now st trades =
       raise (ValueError ("Couldn't find any trading activity for " ++ symbol st ++ "!"))) /\
  (window now st trades <> [] ->
     exists v, calc_volume_weighted_price now st trades = ret v /\
       v == sum_weighted (window now st trades) / inject_Z (sum_qty (window now st trades))).
Proof.
  intro Hpos. split; [|split].
  - intro t. unfold window, in_window. rewrite filter_In, andb_true_iff, Z.ltb_lt, String.eqb_eq.
    tauto.
  - intro He. rewrite calc_vwp_window, He. reflexivity.
  - intro Hne. rewrite calc_vwp_window.
    destruct (vwp_add_fold (window now st trades) 0 0) as [H1 H2].
    destruct (fold_left vwp_add (window now st trades) (0, 0%Z)) as [w v] eqn:E.
    simpl in H1, H2.
    pose proof (sum_qty_pos _ (Forall_window _ now st trades Hpos) Hne) as Hq.
    assert (Hv : (v =? 0)%Z = false) by (apply Z.eqb_neq; lia).
    rewrite Hv. eexists. split; [reflexivity|].
    rewrite H1, H2. rewrite Qplus_0_l. reflexivity.
Qed.


(** C3: for trades with positive quantities (as [Trade.__init__] ensures),
    [calc_volume_weighted_price] at the clock reading [now] keeps exactly
    the trades with [instant > now - 5 minutes] and the stock's symbol;
    on a non-empty window it returns [sum(price * qty) / sum(qty)] over the
    window, and on an empty window it raises the no-activity [ValueError]
    naming the symbol. *)
Theorem calc_volume_weighted_price_spec (now : Z) (st : Stock) (trades : list Trade) :
  Forall (fun t => (0 < qty t)%Z) trades ->
  (forall t, In t (window now st trades) <->
     In t trades /\ (now - five_minutes < instant t)%Z /\ symbol (stock t) = symbol st) /\
  (window now st trades = [] ->
     calc_volume_weighted_price now st trades =
       raise (ValueError ("Couldn't find any trading activity for " ++ symbol st ++ "!"))) /\
  (window now st trades <> [] ->
     exists v, calc_volume_weighted_price now st trades = ret v /\
       v == sum_weighted (window now st trades) / inject_Z (sum_qty (window now st trades))).
Proof. apply vwp_window_facts. Qed.

Lemma calc_volume_weighted_price_spec_witness :
  Forall (fun t => (0 < qty t)%Z) [mkTrade 0 POP true 100 10; mkTrade 0 POP false 50 20] /\
  exists v, calc_volume_weighted_price 1 POP [mkTrade 0 POP true 100 10; mkTrade 0 POP false 50 20] = ret v /\
    v == sum_weighted (window 1 POP [mkTrade 0 POP true 100 10; mkTrade 0 POP false 50 20]) /
         inject_Z (sum_qty (window 1 POP [mkTrade 0 POP true 100 10; mkTrade 0 POP false 50 20])).
Proof.
  assert (H : Forall (fun t => (0 < qty t)%Z) [mkTrade 0 POP true 100 10; mkTrade 0 POP false 50 20]).
  { repeat constructor. }
  split; [exact H|].
  apply (calc_volume_weighted_price_spec 1 POP _ H). discriminate.
Defined.

(** C4 (counterexample): [calc_volume_weighted_price] reads the clock
    itself, so the same stock and trade list give different results at two
    clock readings: a trade at instant 0 is inside the window at reading 1
    and outside it at reading 400000000 (400 seconds later). *)
Lemma calc_vwp_depends_on_clock :
  calc_volume_weighted_price 1 POP [mkTrade 0 POP true 100 10] = ret (1000 # 100) /\
  calc_volume_weighted_price 400000000 POP [mkTrade 0 POP true 100 10] =
    raise (ValueError (no_activity_msg "POP")).
Proof. split; reflexivity. Qed.

(** C4 (amended): the result depends on the clock reading only through the
    window it selects: two readings selecting the same trades give the same
    result (or the same exception). *)
Theorem calc_vwp_clock_through_window (now1 now2 : Z) (st : Stock) (trades : list Trade) :
  window now1 st trades = window now2 st trades ->
  calc_volume_weighted_price now1 st trades = calc_volume_weighted_price now2 st trades.
Proof. intro H. rewrite !calc_vwp_window, H. reflexivity. Qed.

Lemma calc_vwp_clock_through_window_witness :
  window 1 POP [mkTrade 0 POP true 100 10] = window 2 POP [mkTrade 0 POP true 100 10] /\
  calc_volume_weighted_price 1 POP [mkTrade 0 POP true 100 10] =
  calc_volume_weighted_price 2 POP [mkTrade 0 POP true 100 10].
Proof.
  split; [reflexivity|]. apply calc_vwp_clock_through_window. reflexivity.
Defined.

(** ** The GBCE all share index *)

(** The outcomes of the per-stock calls, in the order of the dictionary. *)
Fixpoint outcomes (vwp : nat -> Stock -> list Trade -> result Q) (i : nat)
    (stocks : list (string * Stock)) (trades : list Trade) : list (result Q) :=
  match stocks with
  | [] => []
  | (_, st) :: rest => vwp i st trades :: outcomes vwp (S i) rest trades
  end.

(** The prices among them. *)
Fixpoint ok_values (rs : list (result Q)) : list Q :=
  match rs with
  | [] => []
  | inr v :: rest => v :: ok_values rest
  | inl _ :: rest => ok_values rest
  end.

(** An outcome the handler lets through: a price or a swallowed exception. *)
Definition tolerated (r : result Q) : Prop :=
  match r with inr _ => True | inl e => swallowed e = true end.

Lemma gbce_loop_raise (vwp : nat -> Stock -> list Trade -> result Q)
    (stocks : list (string * Stock)) (trades : list Trade) :
  forall i acc pre e post,
  outcomes vwp i stocks trades = (pre ++ inl e :: post)%list ->
  Forall tolerated pre -> swallowed e = false ->
  gbce_loop vwp i stocks trades acc = raise e.
Proof.
  induction stocks as [|[sym st] rest IH]; intros i acc pre e post Ho Hpre He.
  - destruct pre; discriminate Ho.
  - simpl in Ho |- *. destruct pre as [|r pre].
    + injection Ho as Hv _. rewrite Hv, He. reflexivity.
    + injection Ho as Hv Ho. inversion Hpre as [|? ? Hr Hpre']; subst.
      destruct (vwp i st trades) as [e'|v] eqn:Ev; simpl in Hr.
      * rewrite Hr. eapply IH; eauto.
      * eapply IH; eauto.
Qed.

Lemma gbce_loop_collect (vwp : nat -> Stock -> list Trade -> result Q)
    (stocks : list (string * Stock)) (trades : list Trade) :
  forall i acc,
  Forall tolerated (outcomes vwp i stocks trades) ->
  gbce_loop vwp i stocks trades acc = ret (acc ++ ok_values (outcomes vwp i stocks trades))%list.
Proof.
  induction stocks as [|[sym st] rest IH]; intros i acc Hall; simpl in Hall |- *.
  - rewrite app_nil_r. reflexivity.
  - inversion Hall as [|? ? Hr Hrest]; subst.
    destruct (vwp i st trades) as [e|v] eqn:Ev; simpl in Hr |- *.
    + rewrite Hr. apply IH. exact Hrest.
    + rewrite IH by exact Hrest. rewrite <- app_assoc. reflexivity.
Qed.

Definition global_no_activity_msg : string :=
  "Couldn't find any trading activity for any stock!".

(** The failures of [calc_volume_weighted_price] are all the no-activity
    [ValueError] of the stock's symbol. *)
Lemma calc_vwp_failure (now : Z) (st : Stock) (trades : list Trade) (e : exn) :
  calc_volume_weighted_price now st trades = inl e ->
  e = ValueError (no_activity_msg (symbol st)).
Proof.
  unfold calc_volume_weighted_price.
  destruct (fold_left (vwp_step st (now - five_minutes)) trades (0, 0%Z)) as [w v].
  destruct (v =? 0)%Z; [intro H; injection H as <-; reflexivity | discriminate].
Qed.

Lemma no_activity_swallowed (sym : string) :
  swallowed (ValueError (no_activity_msg sym)) = true.
Proof. reflexivity. Qed.

Lemma gbce_with_collected (vwp : nat -> Stock -> list Trade -> result Q)
    (stocks : list (string * Stock)) (trades : list Trade) :
  Forall tolerated (outcomes vwp 0 stocks trades) ->
  ok_values (outcomes vwp 0 stocks trades) <> [] ->
  gbce_with vwp stocks trades = geometric_mean (ok_values (outcomes vwp 0 stocks trades)).
Proof.
  intros Hall Hne. unfold gbce_with. rewrite gbce_loop_collect by exact Hall.
  simpl. destruct (ok_values (outcomes vwp 0 stocks trades)) as [|v vs];
    [contradiction | reflexivity].
Qed.

(** C5: [gbce] calls the per-stock computation for every stock of the
    dictionary.  The first failure that is not the no-activity one
    propagates; no-activity failures are skipped; when nothing is collected
    the global no-activity [ValueError] (without symbol) is raised; else the
    geometric mean of the collected prices is returned.  With
    [calc_volume_weighted_price] as the per-stock computation, every
    failure is the no-activity one of its stock, and is skipped. *)
Theorem gbce_error_handling (vwp : nat -> Stock -> list Trade -> result Q)
    (stocks : list (string * Stock)) (trades : list Trade) :
  (forall pre e post,
     outcomes vwp 0 stocks trades = (pre ++ inl e :: post)%list ->
     Forall tolerated pre -> swallowed e = false ->
     gbce_with vwp stocks trades = raise e) /\
  (Forall tolerated (outcomes vwp 0 stocks trades) ->
     ok_values (outcomes vwp 0 stocks trades) = [] ->
     gbce_with vwp stocks trades = raise (ValueError global_no_activity_msg)) /\
  (Forall tolerated (outcomes vwp 0 stocks trades) ->
     ok_values (outcomes vwp 0 stocks trades) <> [] ->
     gbce_with vwp stocks trades = geometric_mean (ok_values (outcomes vwp 0 stocks trades))) /\
  (forall now st e, calc_volume_weighted_price now st trades = inl e ->
     e = ValueError (no_activity_msg (symbol st)) /\ swallowed e = true).
Proof.
  split; [|split; [|split]].
  - intros pre e post Ho Hpre He. unfold gbce_with.
    rewrite (gbce_loop_raise vwp stocks trades 0 [] pre e post Ho Hpre He). reflexivity.
  - intros Hall Hnil. unfold gbce_with. rewrite gbce_loop_collect by exact Hall.
    simpl. rewrite Hnil. reflexivity.
  - apply gbce_with_collected.
  - intros now st e H. apply calc_vwp_failure in H. subst e. split; reflexivity.
Qed.

Lemma gbce_error_handling_witness :
  gbce_with (fun i => calc_volume_weighted_price 0) [("POP", POP); ("GIN", GIN)] [] =
    raise (ValueError global_no_activity_msg).
Proof.
  apply (proj1 (proj2 (gbce_error_handling (fun i => calc_volume_weighted_price 0)
                          [("POP", POP); ("GIN", GIN)] []))).
  - repeat constructor.
  - reflexivity.
Defined.

(** *** Positivity of the collected prices *)

Definition trade_ok (t : Trade) : Prop := (0 < qty t)%Z /\ 0 < price t.

Lemma inject_Z_pos (z : Z) : (0 < z)%Z -> 0 < inject_Z z.
Proof. intro H. unfold Qlt. simpl. lia. Qed.

Lemma sum_weighted_pos (ts : list Trade) :
  Forall trade_ok ts -> ts <> [] -> 0 < sum_weighted ts.
Proof.
  induction ts as [|t ts IH]; intros Hall Hne; [contradiction|].
  inversion Hall as [|? ? [Hq Hp] Hts]; subst. simpl.
  assert (Ht : 0 < price t * inject_Z (qty t))
    by (apply Qmult_lt_0_compat; [exact Hp | apply inject_Z_pos; exact Hq]).
  destruct ts as [|t' ts'].
  - simpl. rewrite Qplus_0_r. exact Ht.
  - assert (0 < sum_weighted (t' :: ts')) by (apply IH; [exact Hts | discriminate]).
    fold (sum_weighted (t' :: ts')).
    apply (Qlt_trans _ (0 + sum_weighted (t' :: ts'))).
    + rewrite Qplus_0_l. assumption.
    + apply Qplus_lt_le_compat; [exact Ht | apply Qle_refl].
Qed.

Lemma calc_vwp_pos (now : Z) (st : Stock) (trades : list Trade) (v : Q) :
  Forall trade_ok trades -> calc_volume_weighted_price now st trades = inr v -> 0 < v.
Proof.
  intros Hok Hv.
  assert (Hq : Forall (fun t => (0 < qty t)%Z) trades)
    by (eapply Forall_impl; [|exact Hok]; intros t [H _]; exact H).
  destruct (vwp_window_facts now st trades Hq) as [_ [Hemp Hne]].
  destruct (window now st trades) as [|t ts] eqn:Ew.
  - rewrite (Hemp eq_refl) in Hv. discriminate.
  - destruct (Hne ltac:(discriminate)) as [v' [Hv' Heq]].
    rewrite Hv in Hv'. injection Hv' as <-. rewrite Heq.
    pose proof (Forall_window trade_ok now st trades Hok) as Hw. rewrite Ew in Hw.
    assert (Hqw : Forall (fun t => (0 < qty t)%Z) (t :: ts))
      by (eapply Forall_impl; [|exact Hw]; intros x [H _]; exact H).
    apply Qlt_shift_div_l.
    + apply inject_Z_pos. apply sum_qty_pos; [exact Hqw | discriminate].
    + rewrite Qmult_0_l. apply sum_weighted_pos; [exact Hw | discriminate].
Qed.

Lemma outcomes_tolerated (vwp : nat -> Stock -> list Trade -> result Q)
    (stocks : list (string * Stock)) (trades : list Trade) (i : nat) :
  (forall j st, tolerated (vwp j st trades)) -> Forall tolerated (outcomes vwp i stocks trades).
Proof.
  intro H. revert i. induction stocks as [|[sym st] rest IH]; intro i; simpl; constructor; auto.
Qed.

Lemma ok_values_pos (vwp : nat -> Stock -> list Trade -> result Q)
    (stocks : list (string * Stock)) (trades : list Trade) (i : nat) :
  (forall j st v, vwp j st trades = inr v -> 0 < v) ->
  Forall (fun v => 0 < v) (ok_values (outcomes vwp i stocks trades)).
Proof.
  intro H. revert i. induction stocks as [|[sym st] rest IH]; intro i; simpl; [constructor|].
  destruct (vwp i st trades) as [e|v] eqn:Ev; simpl; [apply IH|].
  constructor; [exact (H i st v Ev) | apply IH].
Qed.

Lemma ok_values_nth (vwp : nat -> Stock -> list Trade -> result Q)
    (stocks : list (string * Stock)) (trades : list Trade) :
  forall i k sym st v,
  nth_error stocks k = Some (sym, st) -> vwp (i + k)%nat st trades = inr v ->
  In v (ok_values (outcomes vwp i stocks trades)).
Proof.
  induction stocks as [|[sym0 st0] rest IH]; intros i k sym st v Hk Hv; [destruct k; discriminate|].
  destruct k as [|k]; simpl in Hk |- *.
  - injection Hk as <- <-. rewrite Nat.add_0_r in Hv. rewrite Hv. simpl. left. reflexivity.
  - assert (Hin : In v (ok_values (outcomes vwp (S i) rest trades)))
      by (apply (IH (S i) k sym st v Hk); rewrite <- Hv; f_equal; lia).
    destruct (vwp i st0 trades); simpl; auto.
Qed.

(** *** The geometric mean of positive prices *)

Lemma Q2R_pos (p : Q) : 0 < p -> (0 < Q2R p)%R.
Proof.
  intro H. apply Qlt_Rlt in H. unfold Q2R at 1 in H. simpl in H. lra.
Qed.

Definition prodR (ps : list Q) : R := fold_right Rmult 1%R (map Q2R ps).

Lemma prodR_pos (ps : list Q) : Forall (fun p => 0 < p) ps -> (0 < prodR ps)%R.
Proof.
  induction ps as [|p ps IH]; intro H; unfold prodR; simpl; [lra|].
  inversion H as [|? ? Hp Hps]; subst.
  apply Rmult_lt_0_compat; [apply Q2R_pos; exact Hp | apply IH; exact Hps].
Qed.

Lemma ln_prodR (ps : list Q) :
  Forall (fun p => 0 < p) ps ->
  ln (prodR ps) = fold_right Rplus 0%R (map (fun x => ln (Q2R x)) ps).
Proof.
  induction ps as [|p ps IH]; intro H; unfold prodR; simpl; [apply ln_1|].
  inversion H as [|? ? Hp Hps]; subst.
  rewrite ln_mult; [| apply Q2R_pos; exact Hp | apply prodR_pos; exact Hps].
  fold (prodR ps). rewrite IH by exact Hps. reflexivity.
Qed.

Lemma geometric_mean_positive (ps : list Q) :
  ps <> [] -> Forall (fun p => 0 < p) ps ->
  geometric_mean ps = ret (Rpower (prodR ps) (/ INR (List.length ps))).
Proof.
  intros Hne Hpos. unfold geometric_mean.
  assert (Hl : (List.length ps =? 0)%nat = false)
    by (destruct ps; [contradiction | reflexivity]).
  assert (Hx : existsb (fun x => Qle_bool x 0) ps = false).
  { apply not_true_iff_false. intro E. apply existsb_exists in E as [x [Hin Hx]].
    apply Qle_bool_iff in Hx. pose proof (proj1 (Forall_forall _ ps) Hpos x Hin) as Hx'.
    exact (Qlt_not_le 0 x Hx' Hx). }
  rewrite Hl, Hx. simpl. unfold ret, Rpower. f_equal. f_equal.
  rewrite ln_prodR by exact Hpos. unfold Rdiv. ring.
Qed.

(** C6: when the trades are valid (positive quantity and price) and some
    stock has a trade in its window, [gbce] returns the geometric mean
    [(prod p_i)^(1/n)] of the [n] collected volume weighted prices.  The
    model computes over the reals (no rounding), so the library's
    [exp(fmean(map(log, data)))] equals it exactly. *)
Theorem gbce_geometric_mean (clock : nat -> Z) (stocks : list (string * Stock))
    (trades : list Trade) :
  Forall trade_ok trades ->
  (exists k sym st, nth_error stocks k = Some (sym, st) /\ window (clock k) st trades <> []) ->
  let ps := ok_values (outcomes (fun i => calc_volume_weighted_price (clock i)) 0 stocks trades) in
  ps <> [] /\ Forall (fun p => 0 < p) ps /\
  gbce clock stocks trades = ret (Rpower (prodR ps) (/ INR (List.length ps))).
Proof.
  intros Hok [k [sym [st [Hk Hw]]]] ps.
  set (vwp := fun i => calc_volume_weighted_price (clock i)).
  assert (Hq : Forall (fun t => (0 < qty t)%Z) trades)
    by (eapply Forall_impl; [|exact Hok]; intros t [H _]; exact H).
  assert (Htol : Forall tolerated (outcomes vwp 0 stocks trades)).
  { apply outcomes_tolerated. intros j s. unfold vwp.
    destruct (calc_volume_weighted_price (clock j) s trades) as [e|v] eqn:E; simpl; [|exact I].
    apply calc_vwp_failure in E. subst e. reflexivity. }
  assert (Hpos : Forall (fun p => 0 < p) ps).
  { apply ok_values_pos. intros j s v Hv. exact (calc_vwp_pos _ _ _ _ Hok Hv). }
  assert (Hne : ps <> []).
  { destruct (vwp_window_facts (clock k) st trades Hq) as [_ [_ H]].
    destruct (H Hw) as [v [Hv _]].
    assert (Hin : In v ps) by (apply (ok_values_nth vwp stocks trades 0 k sym st v Hk); exact Hv).
    intro E. rewrite E in Hin. contradiction. }
  split; [exact Hne|]. split; [exact Hpos|].
  unfold gbce. fold vwp.
  rewrite (gbce_with_collected vwp stocks trades Htol Hne).
  apply geometric_mean_positive; assumption.
Qed.

Lemma gbce_geometric_mean_witness :
  Forall trade_ok [mkTrade 0 POP true 100 10] /\
  gbce (fun _ => 1%Z) [("POP", POP); ("GIN", GIN)] [mkTrade 0 POP true 100 10] =
    ret (Rpower (prodR [1000 / 100]) (/ INR 1)).
Proof.
  assert (Hok : Forall trade_ok [mkTrade 0 POP true 100 10])
    by (repeat constructor).
  split; [exact Hok|].
  refine (proj2 (proj2 (gbce_geometric_mean (fun _ => 1%Z) [("POP", POP); ("GIN", GIN)]
                          [mkTrade 0 POP true 100 10] Hok _))).
  exists 0%nat, "POP", POP. split; [reflexivity | discriminate].
Defined.

(** * The command loop of the main block *)

(** ** [validate_symbol(symbol, stocks)] and [stocks[symbol]]

    The dictionary [stocks] is an association list in insertion order; a
    key is looked up at its first entry. *)
Fixpoint dict_get (k : string) (d : list (string * Stock)) : option Stock :=
  match d with
  | [] => None
  | (k', v) :: rest => if String.eqb k k' then Some v else dict_get k rest
  end.

Definition dict_keys (d : list (string * Stock)) : list string := map fst d.

Definition dict_values (d : list (string * Stock)) : list Stock := map snd d.

(** [repr] of a list of strings, for keys without quotes or backslashes. *)
Fixpoint join (sep : string) (l : list string) : string :=
  match l with
  | [] => ""
  | [x] => x
  | x :: rest => x ++ sep ++ join sep rest
  end.

Definition py_list_repr (l : list string) : string :=
  "[" ++ join ", " (map (fun k => "'" ++ k ++ "'") l) ++ "]".

Definition invalid_symbol_msg (sym : string) (stocks : list (string * Stock)) : string :=
  "Invalid stock symbol(" ++ sym ++ "). Choose from: " ++ py_list_repr (dict_keys stocks).

Definition validate_symbol (sym : string) (stocks : list (string * Stock)) : result unit :=
  if existsb (String.eqb sym) (dict_keys stocks) then ret tt
  else raise (ValueError (invalid_symbol_msg sym stocks)).

(** ** [calc_ratio()] *)
Definition calc_ratio : Z := 0.

(** ** [str.split()] with no argument: runs of white space separate words. *)
Definition is_space (c : ascii) : bool :=
  let n := nat_of_ascii c in
  ((9 <=? n)%nat && (n <=? 13)%nat) || ((28 <=? n)%nat && (n <=? 32)%nat).

Fixpoint split_go (s cur : string) : list string :=
  match s with
  | EmptyString => if String.eqb cur "" then [] else [cur]
  | String c s' =>
      if is_space c then
        if String.eqb cur "" then split_go s' "" else cur :: split_go s' ""
      else split_go s' (cur ++ String c "")
  end.

Definition split (s : string) : list string := split_go s "".

(** ** The [TypeError] of a call with the wrong number of arguments *)
Fixpoint nat_digits (fuel n : nat) (acc : string) : string :=
  match fuel with
  | O => acc
  | S f =>
      let acc' := String (ascii_of_nat (48 + n mod 10)) acc in
      if (n <? 10)%nat then acc' else nat_digits f (n / 10) acc'
  end.

Definition nat_to_string (n : nat) : string := nat_digits (S n) n "".

Definition too_many_args_msg (fname : string) (nparams ngiven : nat) : string :=
  fname ++ "() takes " ++ nat_to_string nparams ++ " positional argument" ++
  (if (nparams =? 1)%nat then "" else "s") ++ " but " ++ nat_to_string ngiven ++
  (if (ngiven =? 1)%nat then " was" else " were") ++ " given".

(** The arity check of [buy(stock, qty, price)] and [sell(...)], for [n]
    arguments of which the first is the stock. *)
Definition trade_arity_error (fname : string) (n : nat) : option exn :=
  match n with
  | 3%nat => None
  | 2%nat => Some (TypeError (fname ++ "() missing 1 required positional argument: 'price'"))
  | 1%nat => Some (TypeError (fname ++ "() missing 2 required positional arguments: 'qty' and 'price'"))
  | _ => Some (TypeError (too_many_args_msg fname 3 n))
  end.

(** ** One round of the [while True] loop

    What is printed is recorded as events: the [Result: ...] line with the
    value returned, an exception message, the help text, the items of
    [pretty_print] (or its 'No items to show!'), the invalid action line. *)
Inductive value : Type :=
| VNone
| VZ (z : Z)
| VQ (q : Q)
| VR (r : R)
| VTrade (t : Trade).

Inductive event : Type :=
| EResult (v : value)
| EError (e : exn)
| EHelp
| EItemTrade (t : Trade)
| EItemStock (s : Stock)
| ENoItems
| EInvalidAction.

(** What the body of the [try] does: print and update [trades], raise, fail
    on [args[n]] out of range ([IndexError]) or [break]. *)
Inductive body_res : Type :=
| BOk (evs : list event) (trades : list Trade)
| BExn (e : exn)
| BIndex
| BBreak.

Definition pretty_print_trades (l : list Trade) : list event :=
  match l with [] => [ENoItems] | _ => map EItemTrade l end.

Definition pretty_print_stocks (l : list Stock) : list event :=
  match l with [] => [ENoItems] | _ => map EItemStock l end.

(** [action, *args = input(...).strip().split()] and the dispatch.  The
    [i]-th clock reading of the round is [clock i]. *)
Definition body (clock : nat -> Z) (stocks : list (string * Stock)) (trades : list Trade)
    (words : list string) : body_res :=
  match words with
  | [] => BExn (ValueError "not enough values to unpack (expected at least 1, got 0)")
  | a :: args =>
      let action := lower a in
      if String.eqb action "exit" || String.eqb action "quit" then BBreak
      else if String.eqb action "buy" || String.eqb action "sell" then
        match args with
        | [] => BIndex
        | sym :: rest =>
            match validate_symbol sym stocks, dict_get sym stocks with
            | inl e, _ => BExn e
            | inr _, None => BIndex
            | inr _, Some st =>
                match trade_arity_error action (S (List.length rest)), rest with
                | None, [q; p] =>
                    match (if String.eqb action "buy" then buy else sell)
                            (clock 0%nat) st (PStr q) (PStr p) with
                    | inr t => BOk [EResult (VTrade t)] (trades ++ [t])
                    | inl e => BExn e
                    end
                | Some e, _ => BExn e
                | None, _ => BIndex
                end
            end
        end
      else if String.eqb action "dividend_yield" then
        match args with
        | [] => BIndex
        | sym :: rest =>
            match validate_symbol sym stocks, dict_get sym stocks with
            | inl e, _ => BExn e
            | inr _, None => BIndex
            | inr _, Some st =>
                match rest with
                | [] => BIndex
                | p :: _ =>
                    match py_float (PStr p) with
                    | inl e => BExn e
                    | inr pr =>
                        match calc_div_yield st pr with
                        | inr y => BOk [EResult (VQ y)] trades
                        | inl e => BExn e
                        end
                    end
                end
            end
        end
      else if String.eqb action "volume_weighted_price" then
        match args with
        | [] => BIndex
        | sym :: _ =>
            match validate_symbol sym stocks, dict_get sym stocks with
            | inl e, _ => BExn e
            | inr _, None => BIndex
            | inr _, Some st =>
                match calc_volume_weighted_price (clock 0%nat) st trades with
                | inr v => BOk [EResult (VQ v)] trades
                | inl e => BExn e
                end
            end
        end
      else if String.eqb action "gbce" then
        match gbce clock stocks trades with
        | inr r => BOk [EResult (VR r)] trades
        | inl e => BExn e
        end
      else if String.eqb action "show_trades" then BOk (pretty_print_trades trades) trades
      else if String.eqb action "show_stocks" then
        BOk (pretty_print_stocks (dict_values stocks)) trades
      else if String.eqb action "help" then
        match args with
        | [] => BOk [EHelp; EResult VNone] trades
        | _ => BExn (TypeError (too_many_args_msg "print_help" 0 (List.length args)))
        end
      else if String.eqb action "p_to_e_ratio" then
        match args with
        | [] => BOk [EResult (VZ calc_ratio)] trades
        | _ => BExn (TypeError (too_many_args_msg "calc_ratio" 0 (List.length args)))
        end
      else BOk [EInvalidAction] trades
  end.

(** [except (ValueError, TypeError)]: a [StatisticsError] is a
    [ValueError]; [NameError] and [IndexError] escape the loop. *)
Definition caught (e : exn) : bool :=
  match e with
  | ValueError _ | TypeError _ | StatisticsError _ => true
  | NameError _ => false
  end.

Inductive uncaught : Type :=
| UExn (e : exn)
| UIndexError
| UEOFError.

Inductive outcome : Type :=
| Continue (evs : list event) (trades : list Trade)
| Break
| Crash (u : uncaught).

Definition step (clock : nat -> Z) (stocks : list (string * Stock)) (trades : list Trade)
    (line : string) : outcome :=
  match body clock stocks trades (split line) with
  | BOk evs trades' => Continue evs trades'
  | BExn e => if caught e then Continue [EError e] trades else Crash (UExn e)
  | BIndex => Crash UIndexError
  | BBreak => Break
  end.

(** The loop over the input lines, each with the clock of its round; at
    the end of the input [input()] raises [EOFError]. *)
Inductive final : Type :=
| FExit (trades : list Trade)
| FCrash (u : uncaught) (trades : list Trade).

Fixpoint run (stocks : list (string * Stock)) (trades : list Trade)
    (inputs : list (string * (nat -> Z))) : list event * final :=
  match inputs with
  | [] => ([], FCrash UEOFError trades)
  | (line, clock) :: rest =>
      match step clock stocks trades line with
      | Continue evs trades' =>
          let '(evs', f) := run stocks trades' rest in ((evs ++ evs')%list, f)
      | Break => ([], FExit trades)
      | Crash u => ([], FCrash u trades)
      end
  end.

(** The registry of the main block and its start: an empty ledger. *)
Definition TEA : Stock := mkStock "TEA" "common" 0 PNone 100.
Definition ALE : Stock := mkStock "ALE" "common" 23 PNone 60.
Definition JOE : Stock := mkStock "JOE" "common" 13 PNone 250.

Definition registry : list (string * Stock) :=
  [("TEA", TEA); ("POP", POP); ("ALE", ALE); ("GIN", GIN); ("JOE", JOE)].

Definition main (inputs : list (string * (nat -> Z))) : list event * final :=
  run registry [] inputs.

(** * Further properties *)

(** ** Trade construction *)

Lemma Trade_init_inr (now : Z) (st : option Stock) (ind : option string)
    (qty0 price0 : PyVal) (t : Trade) :
  Trade_init now st ind qty0 price0 = inr t ->
  exists s i q p, st = Some s /\ ind = Some i /\ py_int qty0 = inr q /\ py_float price0 = inr p /\
    (0 < q)%Z /\ 0 < p /\ (lower i = "buy" \/ lower i = "sell") /\
    t = mkTrade now s (String.eqb (lower i) "buy") q p.
Proof.
  unfold Trade_init. destruct (py_int qty0) as [e|q] eqn:Eq; [discriminate|]. simpl.
  destruct (py_float price0) as [e|p] eqn:Ep; [discriminate|]. simpl.
  destruct st as [s|]; [|discriminate]. destruct ind as [i|]; [|discriminate].
  destruct (q <=? 0)%Z eqn:Hq; [discriminate|].
  destruct (Qle_bool p 0) eqn:Hp; [discriminate|]. simpl.
  destruct (String.eqb_spec (lower i) "buy") as [Eb|Nb];
    destruct (String.eqb_spec (lower i) "sell") as [Es|Ns]; simpl; try discriminate;
    intro H; injection H as <-;
    exists s, i, q, p; repeat split; auto; try (apply Z.leb_gt; exact Hq);
    try (apply Qnot_le_lt; intro C; apply Qle_bool_iff in C; congruence);
    rewrite ?Eb, ?Es; reflexivity.
Qed.

(** A [Trade] that [Trade.__init__] returns holds [int(qty)], which is
    positive, and [float(price)], the given stock and the clock reading of
    the call, and is a buy exactly when the lowercased indicator is "buy"
    (else it is "sell"). *)
Theorem Trade_init_success_invariant (now : Z) (st : option Stock) (ind : option string)
    (qty0 price0 : PyVal) (t : Trade) :
  Trade_init now st ind qty0 price0 = inr t ->
  (0 < qty t)%Z /\ st = Some (stock t) /\ instant t = now /\
  py_int qty0 = inr (qty t) /\ py_float price0 = inr (price t) /\
  exists i, ind = Some i /\ (lower i = "buy" \/ lower i = "sell") /\
            is_buy t = String.eqb (lower i) "buy".
Proof.
  intro H. destruct (Trade_init_inr _ _ _ _ _ _ H)
    as [s [i [q [p [-> [-> [Hq [Hp [Hq0 [Hp0 [Hi ->]]]]]]]]]]].
  simpl. split; [assumption|]. repeat split; auto. exists i. auto.
Qed.

Lemma Trade_init_success_invariant_witness :
  (0 < qty (mkTrade 0 POP true 5 (12 # 10)))%Z /\ Some POP = Some POP.
Proof.
  destruct (Trade_init_success_invariant 0 (Some POP) (Some "Buy") (PStr "5") (PStr "1.2")
              (mkTrade 0 POP true 5 (12 # 10)) eq_refl) as [Hok [Hs _]].
  split; [exact Hok | exact Hs].
Defined.

(** The buy/sell indicator is read case-insensitively. *)
Theorem Trade_init_indicator_case_insensitive (now : Z) (st : option Stock) (ind : string)
    (qty0 price0 : PyVal) :
  Trade_init now st (Some ind) qty0 price0 = Trade_init now st (Some (lower ind)) qty0 price0.
Proof. unfold Trade_init. rewrite lower_idem. reflexivity. Qed.

(** ** Stock construction *)

(** The type of a stock is read case-insensitively, and a stock that
    [Stock.__init__] returns keeps its type in lowercase. *)
Theorem Stock_init_type_case_insensitive (sym : option string) (ty : string)
    (ld fd pv : PyVal) :
  Stock_init sym (Some ty) ld fd pv = Stock_init sym (Some (lower ty)) ld fd pv /\
  (forall st, Stock_init sym (Some ty) ld fd pv = inr st -> lower (typ st) = typ st).
Proof.
  split.
  - unfold Stock_init. destruct sym; [|reflexivity]. rewrite lower_idem. reflexivity.
  - intros st H. destruct sym as [s|]; [|discriminate].
    destruct (Stock_init_shape _ _ _ _ _ _ H) as [-> _]. apply lower_idem.
Qed.

(** ** The command loop *)

Lemma validate_symbol_found (sym : string) (stocks : list (string * Stock)) (st : Stock) :
  dict_get sym stocks = Some st -> validate_symbol sym stocks = ret tt.
Proof.
  intro H. unfold validate_symbol, dict_keys.
  replace (existsb (String.eqb sym) (map fst stocks)) with true; [reflexivity|].
  symmetry. induction stocks as [|[k v] rest IH]; simpl in H |- *; [discriminate|].
  destruct (String.eqb sym k); [reflexivity | apply IH; exact H].
Qed.

Lemma validate_symbol_missing (sym : string) (stocks : list (string * Stock)) :
  dict_get sym stocks = None ->
  validate_symbol sym stocks = raise (ValueError (invalid_symbol_msg sym stocks)).
Proof.
  intro H. unfold validate_symbol, dict_keys.
  replace (existsb (String.eqb sym) (map fst stocks)) with false; [reflexivity|].
  symmetry. induction stocks as [|[k v] rest IH]; simpl in H |- *; [reflexivity|].
  destruct (String.eqb sym k); [discriminate | apply IH; exact H].
Qed.

(** A trade of the ledger: a positive quantity, and a stock of the
    dictionary. *)
Definition valid_trade (stocks : list (string * Stock)) (t : Trade) : Prop :=
  (0 < qty t)%Z /\ exists sym, dict_get sym stocks = Some (stock t).

Lemma body_ok_ledger (clock : nat -> Z) (stocks : list (string * Stock)) (trades : list Trade)
    (words : list string) (evs : list event) (trades' : list Trade) :
  body clock stocks trades words = BOk evs trades' ->
  trades' = trades \/
  exists t, trades' = (trades ++ [t])%list /\ evs = [EResult (VTrade t)] /\
            valid_trade stocks t /\ instant t = clock 0%nat.
Proof.
  unfold body.
  repeat match goal with
         | |- context [match ?x with _ => _ end] => destruct x eqn:?
         | |- context [if ?x then _ else _] => destruct x eqn:?
         end;
    intro H; try discriminate H; injection H as <- <-; auto.
  all: right.
  all: match goal with
       | E : (if ?b then buy else sell) _ _ _ _ = inr ?t, G : dict_get ?sym _ = Some ?st |- _ =>
           exists t; split; [reflexivity|]; split; [reflexivity|];
           destruct b; unfold buy, sell in E;
           destruct (Trade_init_inr _ _ _ _ _ _ E)
             as [s' [i [q [p [Hs [Hi [Hq [Hp [Hq0 [Hp0 [_ ->]]]]]]]]]]];
           injection Hs as <-; unfold valid_trade; simpl;
           (split; [split; [assumption | exists sym; exact G] | reflexivity])
       end.
Qed.

(** Each round of the loop either leaves the ledger as it is or appends
    exactly one trade to its end, keeping every earlier trade: the trade
    printed as the result, with a positive quantity, a stock of the
    dictionary, and the clock reading of the round. *)
Theorem step_ledger_append_only (clock : nat -> Z) (stocks : list (string * Stock))
    (trades : list Trade) (line : string) (evs : list event) (trades' : list Trade) :
  step clock stocks trades line = Continue evs trades' ->
  trades' = trades \/
  exists t, trades' = (trades ++ [t])%list /\ evs = [EResult (VTrade t)] /\
            valid_trade stocks t /\ instant t = clock 0%nat.
Proof.
  unfold step. destruct (body clock stocks trades (split line)) as [e' t'| e | |] eqn:Eb;
    intro H.
  - injection H as <- <-. exact (body_ok_ledger _ _ _ _ _ _ Eb).
  - destruct (caught e); [injection H as _ <-; left; reflexivity | discriminate].
  - discriminate.
  - discriminate.
Qed.

Lemma step_ledger_append_only_witness :
  step (fun _ => 7%Z) registry [] "BUY TEA 5 1.2" =
    Continue [EResult (VTrade (mkTrade 7 TEA true 5 (12 # 10)))] [mkTrade 7 TEA true 5 (12 # 10)] /\
  ([mkTrade 7 TEA true 5 (12 # 10)] = [] \/
   exists t, [mkTrade 7 TEA true 5 (12 # 10)] = ([] ++ [t])%list /\
     [EResult (VTrade (mkTrade 7 TEA true 5 (12 # 10)))] = [EResult (VTrade t)] /\
     valid_trade registry t /\ instant t = 7%Z).
Proof.
  assert (H : step (fun _ => 7%Z) registry [] "BUY TEA 5 1.2" =
    Continue [EResult (VTrade (mkTrade 7 TEA true 5 (12 # 10)))] [mkTrade 7 TEA true 5 (12 # 10)])
    by reflexivity.
  split; [exact H|]. exact (step_ledger_append_only _ _ _ _ _ _ H).
Defined.

Definition final_trades (f : final) : list Trade :=
  match f with FExit tr => tr | FCrash _ tr => tr end.

Lemma step_ledger_valid (clock : nat -> Z) (stocks : list (string * Stock))
    (trades : list Trade) (line : string) (evs : list event) (trades' : list Trade) :
  step clock stocks trades line = Continue evs trades' ->
  exists new, trades' = (trades ++ new)%list /\ Forall (valid_trade stocks) new.
Proof.
  unfold step. destruct (body clock stocks trades (split line)) as [e' t'| e | |] eqn:Eb;
    intro H.
  - injection H as <- <-. destruct (body_ok_ledger _ _ _ _ _ _ Eb) as [->|[t [-> [_ [Hv _]]]]].
    + exists []. rewrite app_nil_r. split; [reflexivity | constructor].
    + exists [t]. split; [reflexivity | constructor; [exact Hv | constructor]].
  - destruct (caught e); [injection H as _ <-|discriminate].
    exists []. rewrite app_nil_r. split; [reflexivity | constructor].
  - discriminate.
  - discriminate.
Qed.

(** Over a whole run of the loop the ledger only grows at its end: the
    final ledger extends the initial one, and if the initial trades are
    valid so are all final ones (positive quantity, stock of the
    dictionary). *)
Theorem run_ledger_append_only (stocks : list (string * Stock)) (trades : list Trade)
    (inputs : list (string * (nat -> Z))) :
  Forall (valid_trade stocks) trades ->
  (exists new, final_trades (snd (run stocks trades inputs)) = (trades ++ new)%list) /\
  Forall (valid_trade stocks) (final_trades (snd (run stocks trades inputs))).
Proof.
  revert trades. induction inputs as [|[line clock] rest IH]; intros trades Hv; simpl.
  - split; [exists []; rewrite app_nil_r; reflexivity | exact Hv].
  - destruct (step clock stocks trades line) as [evs trades'| |u] eqn:Es.
    + destruct (step_ledger_valid _ _ _ _ _ _ Es) as [new [-> Hnew]].
      assert (Hv' : Forall (valid_trade stocks) (trades ++ new)) by (apply Forall_app; auto).
      destruct (IH _ Hv') as [[new' Hn'] Hall].
      destruct (run stocks (trades ++ new) rest) as [evs' f] eqn:Er. simpl in *.
      split; [exists (new ++ new')%list; rewrite Hn', app_assoc; reflexivity | exact Hall].
    + simpl. split; [exists []; rewrite app_nil_r; reflexivity | exact Hv].
    + simpl. split; [exists []; rewrite app_nil_r; reflexivity | exact Hv].
Qed.

Lemma run_ledger_append_only_witness :
  Forall (valid_trade registry) (final_trades (snd (main [("buy TEA 5 1.2", fun _ => 0%Z);
                                                          ("sell POP x 1", fun _ => 1%Z)]))).
Proof.
  exact (proj2 (run_ledger_append_only registry [] _ (Forall_nil _))).
Defined.

(** "exit" and "quit", in any case and with any further words, end the
    loop at once: nothing more is printed (not even 'Exiting ...', since
    [q] is never called), the remaining input is not read, and the ledger
    stays as it is. *)
Theorem run_exit_quit (stocks : list (string * Stock)) (trades : list Trade)
    (line : string) (clock : nat -> Z) (rest : list (string * (nat -> Z)))
    (a : string) (args : list string) :
  split line = a :: args -> lower a = "exit" \/ lower a = "quit" ->
  run stocks trades ((line, clock) :: rest) = ([], FExit trades).
Proof.
  intros Hs Ha. simpl. unfold step, body. rewrite Hs.
  destruct Ha as [-> | ->]; reflexivity.
Qed.

Lemma run_exit_quit_witness :
  run registry [] [("  QuIt now", fun _ => 0%Z); ("buy TEA 5 1.2", fun _ => 0%Z)] = ([], FExit []).
Proof.
  apply (run_exit_quit registry [] "  QuIt now" (fun _ => 0%Z) _ "QuIt" ["now"]);
    [reflexivity | right; reflexivity].
Defined.

(** A [dividend_yield] command for a known symbol with a price that parses
    to a number [<= 0] ends the whole program with the uncaught [NameError]
    of line 83: the loop only catches [ValueError] and [TypeError]. *)
Theorem run_dividend_yield_nonpositive_crash (stocks : list (string * Stock))
    (trades : list Trade) (line : string) (clock : nat -> Z)
    (rest : list (string * (nat -> Z))) (a sym ptxt : string) (args : list string)
    (st : Stock) (pr : Q) :
  split line = a :: sym :: ptxt :: args -> lower a = "dividend_yield" ->
  dict_get sym stocks = Some st -> py_float (PStr ptxt) = inr pr -> pr <= 0 ->
  run stocks trades ((line, clock) :: rest) =
    ([], FCrash (UExn (NameError "name 'valueError' is not defined")) trades).
Proof.
  intros Hs Ha Hg Hf Hp. simpl. unfold step, body. rewrite Hs. cbv zeta. rewrite Ha.
  simpl. rewrite (validate_symbol_found _ _ _ Hg), Hg.
  unfold py_float in Hf. destruct (parse_float ptxt) as [q|] eqn:Ep; [|discriminate].
  unfold ret in Hf. injection Hf as <-. unfold ret. cbn beta iota.
  unfold calc_div_yield. rewrite (Qle_bool_true_le q Hp). reflexivity.
Qed.

Lemma run_dividend_yield_nonpositive_crash_witness :
  run registry [] [("dividend_yield POP -3", fun _ => 0%Z)] =
    ([], FCrash (UExn (NameError "name 'valueError' is not defined")) []).
Proof.
  apply (run_dividend_yield_nonpositive_crash registry [] "dividend_yield POP -3" (fun _ => 0%Z)
           [] "dividend_yield" "POP" "-3" [] POP (-3));
    [reflexivity | reflexivity | reflexivity | reflexivity | discriminate].
Defined.

(** A command that needs a symbol but is given none ([buy], [sell],
    [dividend_yield], [volume_weighted_price]), or a [dividend_yield] for a
    known symbol without a price, ends the program with an uncaught
    [IndexError] from [args[0]] or [args[1]]. *)
Theorem step_missing_argument_crash (clock : nat -> Z) (stocks : list (string * Stock))
    (trades : list Trade) (line a : string) :
  (split line = [a] /\
     In (lower a) ["buy"; "sell"; "dividend_yield"; "volume_weighted_price"]) \/
  (exists sym st, split line = [a; sym] /\ lower a = "dividend_yield" /\
     dict_get sym stocks = Some st) ->
  step clock stocks trades line = Crash UIndexError.
Proof.
  unfold step, body. intros [[Hs Hin]|[sym [st [Hs [Ha Hg]]]]]; rewrite Hs; cbv zeta.
  - simpl in Hin. destruct Hin as [E|[E|[E|[E|[]]]]]; rewrite <- E; reflexivity.
  - rewrite Ha. simpl. rewrite (validate_symbol_found _ _ _ Hg), Hg. reflexivity.
Qed.

Lemma step_missing_argument_crash_witness :
  step (fun _ => 0%Z) registry [] "Buy" = Crash UIndexError.
Proof.
  apply step_missing_argument_crash with (a := "Buy"). left. split; [reflexivity|].
  simpl. left. reflexivity.
Defined.

(** A command naming a symbol that is not a key of the dictionary ([buy],
    [sell], [dividend_yield], [volume_weighted_price]) prints the
    [ValueError] of [validate_symbol], which lists the keys, and leaves the
    ledger unchanged. *)
Theorem step_unknown_symbol (clock : nat -> Z) (stocks : list (string * Stock))
    (trades : list Trade) (line a sym : string) (args : list string) :
  split line = a :: sym :: args ->
  In (lower a) ["buy"; "sell"; "dividend_yield"; "volume_weighted_price"] ->
  dict_get sym stocks = None ->
  step clock stocks trades line =
    Continue [EError (ValueError (invalid_symbol_msg sym stocks))] trades.
Proof.
  intros Hs Hin Hg. unfold step, body. rewrite Hs. cbv zeta.
  rewrite (validate_symbol_missing _ _ Hg).
  simpl in Hin. destruct Hin as [E|[E|[E|[E|[]]]]]; rewrite <- E; reflexivity.
Qed.

Lemma step_unknown_symbol_witness :
  step (fun _ => 0%Z) registry [] "sell tea 1 1" =
    Continue [EError (ValueError (invalid_symbol_msg "tea" registry))] [].
Proof.
  apply (step_unknown_symbol _ _ _ _ "sell" "tea" ["1"; "1"]);
    [reflexivity | simpl; right; left; reflexivity | reflexivity].
Defined.

Lemma split_go_spaces (s : string) :
  (forall c, In c (list_ascii_of_string s) -> is_space c = true) -> split_go s "" = [].
Proof.
  induction s as [|c s IH]; intro H; simpl; [reflexivity|].
  rewrite (H c (or_introl eq_refl)). simpl. apply IH.
  intros c' Hc'. apply H. right. exact Hc'.
Qed.

(** A line made only of white space (or empty) prints the unpacking
    [ValueError] of [action, *args = ...] and the loop goes on with the
    ledger unchanged. *)
Theorem step_blank_line (clock : nat -> Z) (stocks : list (string * Stock))
    (trades : list Trade) (line : string) :
  (forall c, In c (list_ascii_of_string line) -> is_space c = true) ->
  step clock stocks trades line =
    Continue [EError (ValueError "not enough values to unpack (expected at least 1, got 0)")] trades.
Proof.
  intro H. unfold step, split. rewrite (split_go_spaces line H). reflexivity.
Qed.

Lemma step_blank_line_witness :
  step (fun _ => 0%Z) registry [] "  	 " =
    Continue [EError (ValueError "not enough values to unpack (expected at least 1, got 0)")] [].
Proof.
  apply step_blank_line. simpl. intros c Hc.
  repeat (destruct Hc as [<-|Hc]; [reflexivity|]). destruct Hc.
Defined.

(** Command names are case-insensitive: a round with first word [a] does
    the same as with its lowercase. *)
Theorem body_action_case_insensitive (clock : nat -> Z) (stocks : list (string * Stock))
    (trades : list Trade) (a : string) (args : list string) :
  body clock stocks trades (a :: args) = body clock stocks trades (lower a :: args).
Proof. unfold body. cbv zeta. rewrite lower_idem. reflexivity. Qed.

Lemma body_nontrade_ledger (clock : nat -> Z) (stocks : list (string * Stock))
    (trades trades' : list Trade) (a : string) (args : list string) (evs : list event) :
  (String.eqb (lower a) "buy" || String.eqb (lower a) "sell") = false ->
  body clock stocks trades (a :: args) = BOk evs trades' -> trades' = trades.
Proof.
  intros Eb H. unfold body in H. cbv zeta in H. rewrite Eb in H.
  repeat match type of H with
    | context [if ?c then _ else _] => destruct c
    | context [match ?m with _ => _ end] => destruct m
    end; congruence.
Qed.

(** Only a [buy] or [sell] round can change the ledger: every other command
    that the loop survives (or an error it prints) leaves it unchanged. *)
Theorem step_only_trades_change_ledger (clock : nat -> Z) (stocks : list (string * Stock))
    (trades trades' : list Trade) (line : string) (evs : list event) :
  step clock stocks trades line = Continue evs trades' ->
  trades' = trades \/
  exists a args, split line = a :: args /\ (lower a = "buy" \/ lower a = "sell").
Proof.
  unfold step. destruct (split line) as [|a args] eqn:Hs.
  - simpl. intro H. injection H as _ <-. left. reflexivity.
  - destruct (String.eqb (lower a) "buy" || String.eqb (lower a) "sell") eqn:Eb.
    + intros _. right. exists a, args. split; [reflexivity|].
      apply orb_true_iff in Eb. destruct Eb as [E|E]; apply String.eqb_eq in E; auto.
    + intro H. left.
      destruct (body clock stocks trades (a :: args)) as [evs0 t0|e| |] eqn:B.
      * injection H as _ <-. exact (body_nontrade_ledger _ _ _ _ _ _ _ Eb B).
      * destruct (caught e); [injection H as _ <-; reflexivity | discriminate].
      * discriminate.
      * discriminate.
Qed.

Lemma step_only_trades_change_ledger_witness :
  step (fun _ => 0%Z) registry [] "HELP" = Continue [EHelp; EResult VNone] [] /\
  ([] = @nil Trade \/ exists a args, split "HELP" = a :: args /\ (lower a = "buy" \/ lower a = "sell")).
Proof.
  split; [reflexivity|].
  apply (step_only_trades_change_ledger (fun _ => 0%Z) registry [] [] "HELP" [EHelp; EResult VNone]).
  reflexivity.
Defined.
